(** * A shallow embedding of scripts/ssh_socks5_proxy.py

    The script opens a SOCKS5 CONNECT tunnel through a local proxy
    ([socks5_connect]) and then relays bytes between the tunnel and the
    process's standard input and output ([forward_data]).

    Modelling choices.
    - Python [bytes] values are lists of integers in 0..255 ([list Z]);
      a Python [str] is the list of its code points ([list Z]).
    - All I/O goes through an environment [oracle]: it decides whether the
      proxy accepts the TCP connection, what each [sock.recv] and
      [os.read] call returns (or whether it raises), whether each
      [sock.sendall] succeeds, how many bytes each [os.write] writes, and
      which descriptors [select.select] reports readable.  Quantifying over
      the oracle quantifies over every execution.
    - Every observable effect is appended to a trace of [event]s.
    - Python exceptions are the constructors of [exn]; [while True] is run
      with fuel, running out of it being the result [Stuck]. *)

From Stdlib Require Import ZArith List Bool Lia.
Import ListNotations.
Open Scope Z_scope.

(** ** Python values and the builtins the script uses *)

(** Exceptions that can escape from the script's statements. *)
Inductive exn :=
| OSError                 (* socket / file-descriptor failure *)
| AuthFailed              (* Exception("SOCKS5 proxy authentication failed") *)
| ConnectFailed (status : Z) (* Exception(f"SOCKS5 connection failed: status=...") *)
| IndexError              (* response[1] on a reply shorter than 2 bytes *)
| ValueError              (* bytes([n]) with n outside 0..255 *)
| UnicodeEncodeError      (* str.encode() on a lone surrogate *)
| StructError.            (* struct.pack(">H", n) with n outside 0..65535 *)

(** Python slice [b[i:j]] for non-negative [i <= j]. *)
Definition py_slice (i j : nat) (b : list Z) : list Z :=
  firstn (j - i) (skipn i b).

Definition bytes_eqb (a b : list Z) : bool :=
  if list_eq_dec Z.eq_dec a b then true else false.

(** [bytes([n])] *)
Definition py_bytes1 (n : Z) : option (list Z) :=
  if (0 <=? n) && (n <=? 255) then Some [n] else None.

(** [struct.pack(">H", n)]: big-endian unsigned 16-bit integer. *)
Definition struct_pack_H (n : Z) : option (list Z) :=
  if (0 <=? n) && (n <=? 65535)
  then Some [Z.shiftr n 8; Z.land n 255]
  else None.

(** UTF-8 encoding of one code point; [None] on a surrogate, which the
    strict codec used by [str.encode()] refuses. *)
Definition utf8_encode_cp (c : Z) : option (list Z) :=
  if c <? 128 then Some [c]
  else if c <? 2048 then
    Some [Z.lor 192 (Z.shiftr c 6); Z.lor 128 (Z.land c 63)]
  else if (55296 <=? c) && (c <=? 57343) then None
  else if c <? 65536 then
    Some [Z.lor 224 (Z.shiftr c 12);
          Z.lor 128 (Z.land (Z.shiftr c 6) 63);
          Z.lor 128 (Z.land c 63)]
  else
    Some [Z.lor 240 (Z.shiftr c 18);
          Z.lor 128 (Z.land (Z.shiftr c 12) 63);
          Z.lor 128 (Z.land (Z.shiftr c 6) 63);
          Z.lor 128 (Z.land c 63)].

(** [s.encode()] (UTF-8, strict). *)
Fixpoint str_encode (s : list Z) : option (list Z) :=
  match s with
  | [] => Some []
  | c :: s' =>
      match utf8_encode_cp c, str_encode s' with
      | Some b, Some bs => Some (b ++ bs)
      | _, _ => None
      end
  end.

(** ** The environment and the trace *)

(** Answers the outside world gives, consumed in order.  An exhausted list
    falls back to the benign answer: [recv]/[read] see end-of-stream,
    [sendall] succeeds, [os.write] writes everything, and [select] never
    returns again. *)
Record oracle := mkOracle {
  connect_ok : bool;                    (* sock.connect((PROXY_HOST, PROXY_PORT)) *)
  sock_rx : list (option (list Z));     (* sock.recv results; None = raises *)
  stdin_rx : list (option (list Z));    (* os.read(stdin) results; None = raises *)
  tx_ok : list bool;                    (* sock.sendall outcomes *)
  wr : list (option nat);               (* os.write counts; None = raises *)
  sel : list (bool * bool)              (* select: (sock readable, stdin readable) *)
}.

(** What the script writes to standard error. *)
Inductive diag :=
| Usage                     (* print(f"Usage: ...") *)
| Traceback (e : exn)       (* interpreter report of an uncaught exception *)
| ForwardErr (e : exn)      (* print(f"Error forwarding data: {e}") *)
| ProxyErr (e : exn).       (* print(f"Proxy error: {e}") *)

Inductive event :=
| EvConnect (ok : bool)          (* TCP connect to the proxy attempted *)
| EvSend (data : list Z)         (* sock.sendall(data) completed *)
| EvRecv (data : list Z)         (* sock.recv returned data *)
| EvSelect (rs ri : bool)        (* select returned *)
| EvStdout (data : list Z)       (* bytes os.write put on fd 1 *)
| EvStdin (data : list Z)        (* os.read(fd 0) returned data *)
| EvStderr (d : diag).

Record st := mkSt { env : oracle; trace : list event }.

(** ** The state-and-exception monad *)

Inductive res (A : Type) :=
| Ok (a : A)
| Raise (e : exn)
| Stuck.
Arguments Ok {A} a.
Arguments Raise {A} e.
Arguments Stuck {A}.

Definition M (A : Type) := st -> res A * st.

Definition ret {A} (a : A) : M A := fun s => (Ok a, s).
Definition raise {A} (e : exn) : M A := fun s => (Raise e, s).
Definition stuck {A} : M A := fun s => (Stuck, s).

Definition bind {A B} (m : M A) (k : A -> M B) : M B :=
  fun s =>
    match m s with
    | (Ok a, s') => k a s'
    | (Raise e, s') => (Raise e, s')
    | (Stuck, s') => (Stuck, s')
    end.

Notation "x <- m ;; k" := (bind m (fun x => k))
  (at level 61, m at next level, right associativity).
Notation "m ;;; k" := (bind m (fun _ => k))
  (at level 61, right associativity).

(** [try: m except Exception as e: h e] *)
Definition try_except {A} (m : M A) (h : exn -> M A) : M A :=
  fun s =>
    match m s with
    | (Raise e, s') => h e s'
    | r => r
    end.

Definition lift_opt {A} (e : exn) (o : option A) : M A :=
  match o with Some a => ret a | None => raise e end.

Definition emit (ev : event) : M unit :=
  fun s => (Ok tt, mkSt (env s) (trace s ++ [ev])).

Definition set_env (o : oracle) : M unit :=
  fun s => (Ok tt, mkSt o (trace s)).

Definition get_env : M oracle := fun s => (Ok (env s), s).

(** ** Primitive I/O operations *)

Definition sock_connect : M unit :=
  o <- get_env ;;
  emit (EvConnect (connect_ok o)) ;;;
  if connect_ok o then ret tt else raise OSError.

Definition sock_sendall (data : list Z) : M unit :=
  o <- get_env ;;
  match tx_ok o with
  | [] => emit (EvSend data)
  | b :: rest =>
      set_env (mkOracle (connect_ok o) (sock_rx o) (stdin_rx o) rest (wr o) (sel o)) ;;;
      if b then emit (EvSend data) else raise OSError
  end.

Definition sock_recv (n : nat) : M (list Z) :=
  o <- get_env ;;
  match sock_rx o with
  | [] => emit (EvRecv []) ;;; ret []
  | r :: rest =>
      set_env (mkOracle (connect_ok o) rest (stdin_rx o) (tx_ok o) (wr o) (sel o)) ;;;
      match r with
      | Some d => emit (EvRecv (firstn n d)) ;;; ret (firstn n d)
      | None => raise OSError
      end
  end.

Definition os_read_stdin (n : nat) : M (list Z) :=
  o <- get_env ;;
  match stdin_rx o with
  | [] => emit (EvStdin []) ;;; ret []
  | r :: rest =>
      set_env (mkOracle (connect_ok o) (sock_rx o) rest (tx_ok o) (wr o) (sel o)) ;;;
      match r with
      | Some d => emit (EvStdin (firstn n d)) ;;; ret (firstn n d)
      | None => raise OSError
      end
  end.

(** [os.write(sys.stdout.fileno(), data)]: returns the number of bytes
    actually written, which may be fewer than [len(data)]. *)
Definition os_write_stdout (data : list Z) : M nat :=
  o <- get_env ;;
  match wr o with
  | [] => emit (EvStdout data) ;;; ret (length data)
  | w :: rest =>
      set_env (mkOracle (connect_ok o) (sock_rx o) (stdin_rx o) (tx_ok o) rest (sel o)) ;;;
      match w with
      | Some k =>
          let k' := Nat.min k (length data) in
          emit (EvStdout (firstn k' data)) ;;; ret k'
      | None => raise OSError
      end
  end.

(** [select.select([sock, sys.stdin], [], [])] with no timeout. *)
Definition select_ : M (bool * bool) :=
  o <- get_env ;;
  match sel o with
  | [] => stuck
  | (rs, ri) :: rest =>
      set_env (mkOracle (connect_ok o) (sock_rx o) (stdin_rx o) (tx_ok o) (wr o) rest) ;;;
      emit (EvSelect rs ri) ;;;
      ret (rs, ri)
  end.

Definition print_stderr (d : diag) : M unit := emit (EvStderr d).

(** ** [socks5_connect(target_host, target_port)] (lines 28-58)

    The socket object is implicit: there is one proxy connection, and the
    function's return value [sock] is [tt]. *)
Definition socks5_connect (target_host : list Z) (target_port : Z) : M unit :=
  sock_connect ;;;
  sock_sendall [5; 1; 0] ;;;
  response <- sock_recv 2 ;;
  if negb (bytes_eqb (py_slice 1 2 response) [0]) then raise AuthFailed else
  (* the request expression's operands, evaluated left to right *)
  len_b <- lift_opt ValueError (py_bytes1 (Z.of_nat (length target_host))) ;;
  host_b <- lift_opt UnicodeEncodeError (str_encode target_host) ;;
  port_b <- lift_opt StructError (struct_pack_H target_port) ;;
  let request := [5; 1; 0; 3] ++ len_b ++ host_b ++ port_b in
  sock_sendall request ;;;
  response <- sock_recv 10 ;;
  if negb (bytes_eqb (py_slice 1 2 response) [0]) then
    (* the f-string evaluates response[1] before the raise *)
    status <- lift_opt IndexError (nth_error response 1) ;;
    raise (ConnectFailed status)
  else ret tt.

(** ** [forward_data(sock)] (lines 61-83) *)

(** The chunk size 8192 of [sock.recv] and [os.read]. *)
Definition chunk : nat := Z.to_nat 8192.

(** One pass of the [while True] body; [true] means a [break] was hit. *)
Definition forward_iter : M bool :=
  readable <- select_ ;;
  let '(sock_r, stdin_r) := readable in
  brk <- (if sock_r then
            data <- sock_recv chunk ;;
            match data with
            | [] => ret true
            | _ => os_write_stdout data ;;; ret false
            end
          else ret false) ;;
  if brk then ret true else
  if stdin_r then
    data <- os_read_stdin chunk ;;
    match data with
    | [] => ret true
    | _ => sock_sendall data ;;; ret false
    end
  else ret false.

Fixpoint forward_loop (fuel : nat) : M unit :=
  match fuel with
  | O => stuck
  | S fuel' =>
      brk <- forward_iter ;;
      if brk then ret tt else forward_loop fuel'
  end.

Definition forward_data (fuel : nat) : M unit :=
  try_except (forward_loop fuel)
    (fun e => print_stderr (ForwardErr e) ;;; raise e).

(** ** The [__main__] block (lines 86-99)

    [py_int] is Python's [int()] on a [str]: [None] when it raises
    [ValueError].  The block returns the process exit status. *)
Section Main.
Variable py_int : list Z -> option Z.

Definition main (argv : list (list Z)) (fuel : nat) : M Z :=
  match argv with
  | [_; target_host; port_s] =>
      match py_int port_s with
      | None =>
          (* int() raises outside the try: uncaught, status 1 *)
          print_stderr (Traceback ValueError) ;;; ret 1
      | Some target_port =>
          try_except
            (socks5_connect target_host target_port ;;;
             forward_data fuel ;;;
             ret 0)
            (fun e => print_stderr (ProxyErr e) ;;; ret 1)
      end
  | _ => print_stderr Usage ;;; ret 1
  end.

End Main.

(** A model of [int()] on ASCII text, used to run [main] on examples:
    surrounding whitespace, an optional sign, then decimal digits in
    which single underscores may separate two digits.  (Non-ASCII digits
    and spaces, which [int()] also accepts, are not modelled.) *)
Definition is_digit (c : Z) : bool := (48 <=? c) && (c <=? 57).

Fixpoint digits_rest (acc : Z) (s : list Z) : option Z :=
  match s with
  | [] => Some acc
  | 95 :: c :: s' =>
      if is_digit c then digits_rest (acc * 10 + (c - 48)) s' else None
  | c :: s' =>
      if is_digit c then digits_rest (acc * 10 + (c - 48)) s' else None
  end.

(** Decimal digits: at least one, starting with a digit. *)
Definition digits_val (s : list Z) : option Z :=
  match s with
  | c :: _ => if is_digit c then digits_rest 0 s else None
  | [] => None
  end.

(** [str.isspace] on ASCII: tab to carriage return, 0x1c to 0x1f, space. *)
Definition is_space (c : Z) : bool :=
  (c =? 32) || ((9 <=? c) && (c <=? 13)) || ((28 <=? c) && (c <=? 31)).

Fixpoint drop_spaces (s : list Z) : list Z :=
  match s with
  | c :: s' => if is_space c then drop_spaces s' else s
  | [] => []
  end.

Definition strip (s : list Z) : list Z := rev (drop_spaces (rev (drop_spaces s))).

Definition py_int_ascii (s : list Z) : option Z :=
  match strip s with
  | 45 :: ds => option_map Z.opp (digits_val ds)
  | 43 :: ds => digits_val ds
  | ds => digits_val ds
  end.

(** ** Observations on traces *)

(** Bytes handed to the proxy connection by [sendall]. *)
Fixpoint sent (tr : list event) : list Z :=
  match tr with
  | EvSend d :: tr' => d ++ sent tr'
  | _ :: tr' => sent tr'
  | [] => []
  end.

(** Bytes returned by [sock.recv]. *)
Fixpoint received (tr : list event) : list Z :=
  match tr with
  | EvRecv d :: tr' => d ++ received tr'
  | _ :: tr' => received tr'
  | [] => []
  end.

(** Bytes put on standard output. *)
Fixpoint stdout_bytes (tr : list event) : list Z :=
  match tr with
  | EvStdout d :: tr' => d ++ stdout_bytes tr'
  | _ :: tr' => stdout_bytes tr'
  | [] => []
  end.

(** Bytes read from standard input. *)
Fixpoint stdin_bytes (tr : list event) : list Z :=
  match tr with
  | EvStdin d :: tr' => d ++ stdin_bytes tr'
  | _ :: tr' => stdin_bytes tr'
  | [] => []
  end.

Definition is_stdout (ev : event) : bool :=
  match ev with EvStdout _ => true | _ => false end.

(** A zero-length read on either side: end-of-stream. *)
Definition is_eof_read (ev : event) : bool :=
  match ev with EvRecv [] | EvStdin [] => true | _ => false end.

Definition init (o : oracle) : st := mkSt o [].

(** A proxy that accepts no-auth and the CONNECT request. *)
Definition good_proxy : oracle :=
  mkOracle true [Some [5; 0]; Some [5; 0; 0; 1; 0; 0; 0; 0; 0; 0]] [] [] [] [].

(** A proxy whose CONNECT reply is cut short after the status byte. *)
Definition short_reply_proxy : oracle :=
  mkOracle true [Some [5; 0]; Some [5; 0]] [] [] [] [].

(** A tunnel that delivers 01 02 and then closes, while standard output
    accepts only one byte on the first [os.write]. *)
Definition partial_write : oracle :=
  mkOracle true [Some [1; 2]; Some []] [] [] [Some 1%nat]
    [(true, false); (true, false)].

(** A proxy that refuses the TCP connection. *)
Definition unreachable_proxy : oracle := mkOracle false [] [] [] [] [].

(** A run in which both sides carry one byte, then the tunnel closes while
    standard input still has data queued. *)
Definition eof_tunnel : oracle :=
  mkOracle true [Some [7]; Some []] [Some [8]; Some [9]] [] []
    [(true, true); (true, true)].

Definition eof_tunnel_after : oracle :=
  mkOracle true [] [Some [9]] [] [] [].

Definition eof_tunnel_trace : list event :=
  [EvSelect true true; EvRecv [7]; EvStdout [7]; EvStdin [8]; EvSend [8];
   EvSelect true true; EvRecv []].

(** ** Proof tools *)

Definition eof_free (l : list event) : bool :=
  forallb (fun ev => negb (is_eof_read ev)) l.

(** Shape of the events a forwarding run appends: a run that returns has
    just observed end-of-stream as its very last event, and no other
    end-of-stream appears; any other run observed no end-of-stream. *)
Definition eof_shape {A} (r : res A) (l : list event) : Prop :=
  match r with
  | Ok _ => l <> [] /\ eof_free (removelast l) = true
            /\ is_eof_read (last l (EvSelect false false)) = true
  | _ => eof_free l = true
  end.

(** What one pass of the loop does to the two byte streams: standard input
    is sent on in full (a pending chunk remains only when [sendall]
    raised), and the tunnel's bytes reach standard output in full as long
    as every [os.write] writes everything it is given. *)
Definition fidelity {A} (full : bool) (r : res A) (new : list event) : Prop :=
  (full = true -> stdout_bytes new = received new) /\
  match r with
  | Raise _ => exists pending, stdin_bytes new = sent new ++ pending
  | _ => stdin_bytes new = sent new
  end.

Definition full_writes (o : oracle) : bool :=
  match wr o with [] => true | _ => false end.

(** An [os.write] answer that writes any chunk [forward_data] can hand it
    in full: a count of at least 8192 bytes. *)
Definition write_whole (w : option nat) : bool :=
  match w with Some k => Nat.leb chunk k | None => false end.

Definition whole_writes (o : oracle) : bool := forallb write_whole (wr o).

(** Every byte read from standard input was sent on, except a last chunk
    [pending] that can only be left over when the run ends with the error
    of [sendall], right after that chunk was read. *)
Definition stdin_exact {A} (r : res A) (new : list event) : Prop :=
  exists pending,
    stdin_bytes new = sent new ++ pending /\
    (pending = [] \/
     (r = Raise OSError /\ exists pre, new = pre ++ [EvStdin pending])).

(** Events that only involve the proxy connection. *)
Definition is_sock_event (ev : event) : bool :=
  match ev with EvConnect _ | EvSend _ | EvRecv _ => true | _ => false end.

(** A computation that only talks to the proxy connection: it appends
    connection events to the trace and leaves standard input, the
    [os.write] results and [select] untouched. *)
Definition sock_only {A} (m : M A) : Prop :=
  forall s, exists new,
    trace (snd (m s)) = trace s ++ new /\
    forallb is_sock_event new = true /\
    stdin_rx (env (snd (m s))) = stdin_rx (env s) /\
    wr (env (snd (m s))) = wr (env s) /\
    sel (env (snd (m s))) = sel (env s).

(** The exception [socks5_connect] raises while building the CONNECT
    request, following the left-to-right evaluation of its operands. *)
Definition request_error (host : list Z) : exn :=
  if (255 <? length host)%nat then ValueError
  else match str_encode host with
       | None => UnicodeEncodeError
       | Some _ => StructError
       end.

(** A proxy that accepts the handshake; the tunnel then fails on the
    first [recv]. *)
Definition broken_tunnel : oracle :=
  mkOracle true [Some [5; 0]; Some [5; 0; 0; 1; 0; 0; 0; 0; 0; 0]; None]
    [] [] [] [(true, false)].

(** [subseq a b]: [a] is obtained from [b] by deleting elements. *)
Inductive subseq {A} : list A -> list A -> Prop :=
| subseq_nil : subseq [] []
| subseq_skip : forall x a b, subseq a b -> subseq a (x :: b)
| subseq_keep : forall x a b, subseq a b -> subseq (x :: a) (x :: b).

Ltac split_matches :=
  repeat (cbn in *;
          match goal with
          | |- context [match ?x with _ => _ end] =>
              lazymatch x with
              | context [match _ with _ => _ end] => fail
              | _ => destruct x eqn:?
              end
          end).

(** Like [split_matches], also splitting on byte-string comparisons. *)
Ltac split_matches_b :=
  repeat (cbn -[bytes_eqb sent];
          match goal with
          | |- context [bytes_eqb ?a ?b] => destruct (bytes_eqb a b)
          | |- context [match ?x with _ => _ end] =>
              lazymatch x with
              | context [match _ with _ => _ end] => fail
              | _ => destruct x eqn:?
              end
          end).

(** Like [split_matches_b], keeping slices folded and recording the
    outcome of each comparison. *)
Ltac split_matches_s :=
  repeat (cbn -[bytes_eqb sent py_slice];
          match goal with
          | |- context [bytes_eqb ?a ?b] => destruct (bytes_eqb a b) eqn:?
          | |- context [match ?x with _ => _ end] =>
              lazymatch x with
              | context [match _ with _ => _ end] => fail
              | _ => destruct x eqn:?
              end
          end).

Ltac run_st s :=
  destruct s as [[? ? ? ? ? ?] ?];
  unfold forward_iter, select_, sock_recv, os_read_stdin, os_write_stdout,
    sock_sendall, sock_connect, emit, set_env, get_env, bind, ret, raise,
    stuck, lift_opt in *;
  split_matches.

Ltac close_ext :=
  subst; cbn [trace env eof_shape] in *; rewrite <- ?app_assoc;
  first [ exists []; rewrite app_nil_r; split; [reflexivity | auto]
        | eexists; split; [reflexivity | cbn;
            repeat split; auto; discriminate] ].

Lemma forward_iter_shape : forall s,
  let (r, s') := forward_iter s in
  exists new, trace s' = trace s ++ new /\
    match r with
    | Ok true => eof_shape r new
    | _ => eof_free new = true
    end.
Proof.
  intros s. run_st s; close_ext.
Qed.

Lemma last_app_ne {A} (l l' : list A) (d : A) :
  l' <> [] -> last (l ++ l') d = last l' d.
Proof.
  intros Hne. induction l as [|a l IH]; [reflexivity|].
  rewrite <- app_comm_cons. cbn. rewrite IH.
  destruct l as [|b l]; cbn.
  - destruct l' as [|c l']; [congruence | reflexivity].
  - destruct (l ++ l') eqn:E; [apply app_eq_nil in E; tauto | reflexivity].
Qed.

Lemma eof_shape_app {A} (r : res A) (l1 l2 : list event) :
  eof_free l1 = true -> eof_shape r l2 -> eof_shape r (l1 ++ l2).
Proof.
  intros H1 H2. destruct r; cbn in *;
    try (unfold eof_free in *; rewrite forallb_app, H1; exact H2).
  destruct H2 as (Hne & Hrl & Hl). repeat split.
  - intros E. apply app_eq_nil in E. tauto.
  - rewrite removelast_app by exact Hne.
    unfold eof_free in *. rewrite forallb_app, H1. exact Hrl.
  - rewrite last_app_ne by exact Hne. exact Hl.
Qed.

Lemma forward_loop_shape : forall fuel s,
  let (r, s') := forward_loop fuel s in
  exists new, trace s' = trace s ++ new /\ eof_shape r new.
Proof.
  induction fuel as [|fuel IH]; intros s; cbn.
  - exists []. rewrite app_nil_r. auto.
  - unfold bind. pose proof (forward_iter_shape s) as Hi.
    destruct (forward_iter s) as [[[|]| e |] s1]; cbn in *;
      destruct Hi as (new1 & Ht1 & Hs1).
    + exists new1. auto.
    + specialize (IH s1). destruct (forward_loop fuel s1) as [r s2].
      destruct IH as (new2 & Ht2 & Hs2).
      exists (new1 ++ new2). split.
      * rewrite Ht2, Ht1, app_assoc. reflexivity.
      * apply eof_shape_app; assumption.
    + exists new1. auto.
    + exists new1. auto.
Qed.

Lemma forward_data_shape : forall fuel s,
  let (r, s') := forward_data fuel s in
  exists new, trace s' = trace s ++ new /\ eof_shape r new.
Proof.
  intros fuel s. unfold forward_data, try_except.
  pose proof (forward_loop_shape fuel s) as H.
  destruct (forward_loop fuel s) as [[u| e |] s1]; auto.
  destruct H as (new & Ht & Hs). cbn in *.
  exists (new ++ [EvStderr (ForwardErr e)]). split.
  - rewrite Ht, app_assoc. reflexivity.
  - unfold eof_free in *. rewrite forallb_app, Hs. reflexivity.
Qed.

(** ** C4: the first end-of-stream ends forwarding *)

(** C4. Once [forward_data] observes a zero-length read on the tunnel or on
    standard input, that read is the last event of the run: no further read
    or write happens in either direction, and [forward_data] returns
    normally to its caller. *)
Theorem forward_data_stops_at_first_eof :
  forall fuel s r s' new pre ev post,
    forward_data fuel s = (r, s') ->
    trace s' = trace s ++ new ->
    new = pre ++ ev :: post ->
    is_eof_read ev = true ->
    post = [] /\ r = Ok tt.
Proof.
  intros fuel s r s' new pre ev post Hrun Ht Hnew Hev.
  pose proof (forward_data_shape fuel s) as Hs. rewrite Hrun in Hs.
  destruct Hs as (new0 & Ht0 & Hsh).
  rewrite Ht in Ht0. apply app_inv_head in Ht0. subst new0 new.
  destruct r as [[]| e |]; cbn in Hsh.
  - destruct Hsh as (_ & Hrl & _). split; [|reflexivity].
    destruct post as [|p post]; [reflexivity|].
    rewrite removelast_app in Hrl by discriminate.
    unfold eof_free in Hrl. rewrite forallb_app in Hrl.
    cbn in Hrl. rewrite Hev in Hrl.
    apply andb_prop in Hrl. destruct Hrl as [_ Hrl]. discriminate.
  - unfold eof_free in Hsh. rewrite forallb_app in Hsh. cbn in Hsh.
    rewrite Hev in Hsh. apply andb_prop in Hsh. destruct Hsh as [_ Hsh].
    discriminate.
  - unfold eof_free in Hsh. rewrite forallb_app in Hsh. cbn in Hsh.
    rewrite Hev in Hsh. apply andb_prop in Hsh. destruct Hsh as [_ Hsh].
    discriminate.
Qed.

Lemma forward_data_stops_at_first_eof_witness :
  forward_data 3 (init eof_tunnel) = (Ok tt, mkSt eof_tunnel_after eof_tunnel_trace)
  /\ [] = ([] : list event) /\ (Ok tt : res unit) = Ok tt.
Proof.
  split; [vm_compute; reflexivity|].
  apply (forward_data_stops_at_first_eof 3 (init eof_tunnel) (Ok tt)
           (mkSt eof_tunnel_after eof_tunnel_trace) eof_tunnel_trace
           [EvSelect true true; EvRecv [7]; EvStdout [7]; EvStdin [8]; EvSend [8];
            EvSelect true true] (EvRecv []) []).
  - vm_compute. reflexivity.
  - reflexivity.
  - reflexivity.
  - reflexivity.
Defined.

(** ** C7: an iteration with both sides ready services both *)

(** C7. In an iteration of the forwarding loop where [select] reports both
    the tunnel and standard input readable and the tunnel delivers data
    (it is not at end-of-stream), the tunnel's data is read and written to
    standard output and then, in the same iteration, standard input is read
    as well, provided writing to standard output did not raise (a raised
    error ends forwarding altogether).  Neither direction waits for the
    other to go idle. *)
Theorem forward_iter_services_both :
  forall c srx sin tx w sl tr d d',
    firstn chunk d <> [] ->
    hd_error w <> Some None ->
    exists r s' out rest,
      forward_iter (mkSt (mkOracle c (Some d :: srx) (Some d' :: sin) tx w
                            ((true, true) :: sl)) tr) = (r, s') /\
      trace s' = tr ++ [EvSelect true true; EvRecv (firstn chunk d);
                        EvStdout out; EvStdin (firstn chunk d')] ++ rest.
Proof.
  intros c srx sin tx w sl tr d d' Hd Hw.
  unfold forward_iter, select_, sock_recv, os_read_stdin, os_write_stdout,
    sock_sendall, emit, set_env, get_env, bind, ret, raise.
  split_matches; try (cbn in *; congruence);
    do 4 eexists; (split; [reflexivity|]); cbn;
    rewrite <- !app_assoc; reflexivity.
Qed.

Lemma forward_iter_services_both_witness :
  firstn chunk [7] <> [] /\ hd_error (@nil (option nat)) <> Some None /\
  exists r s' out rest,
    forward_iter (mkSt (mkOracle true [Some [7]] [Some [8]] [] []
                          [(true, true)]) []) = (r, s') /\
    trace s' = [] ++ [EvSelect true true; EvRecv (firstn chunk [7]);
                      EvStdout out; EvStdin (firstn chunk [8])] ++ rest.
Proof.
  split; [vm_compute; discriminate|].
  split; [discriminate|].
  apply forward_iter_services_both; [vm_compute; discriminate | discriminate].
Defined.

(** ** The handshake *)

Lemma bytes_eqb_true : forall a b, bytes_eqb a b = true <-> a = b.
Proof.
  intros a b. unfold bytes_eqb.
  destruct (list_eq_dec Z.eq_dec a b); split; congruence.
Qed.

(** [r[1:2] == b"\x00"] holds exactly when [r] has a byte 1 and it is 0. *)
Lemma status_byte_ok : forall r,
  bytes_eqb (py_slice 1 2 r) [0] = true <-> nth_error r 1 = Some 0.
Proof.
  intros r. rewrite bytes_eqb_true. unfold py_slice.
  destruct r as [|a [|b r]]; cbn; split; congruence.
Qed.

Lemma status_byte_bad : forall r,
  nth_error r 1 <> Some 0 -> bytes_eqb (py_slice 1 2 r) [0] = false.
Proof.
  intros r H. destruct (bytes_eqb (py_slice 1 2 r) [0]) eqn:E; [|reflexivity].
  apply status_byte_ok in E. contradiction.
Qed.

Lemma py_bytes1_large : forall n, 255 < n -> py_bytes1 n = None.
Proof.
  intros n H. unfold py_bytes1.
  replace (n <=? 255) with false by (symmetry; apply Z.leb_gt; lia).
  rewrite andb_false_r. reflexivity.
Qed.

Lemma py_bytes1_small : forall n, 0 <= n <= 255 -> py_bytes1 n = Some [n].
Proof.
  intros n H. unfold py_bytes1.
  replace (0 <=? n) with true by (symmetry; apply Z.leb_le; lia).
  replace (n <=? 255) with true by (symmetry; apply Z.leb_le; lia).
  reflexivity.
Qed.

Lemma struct_pack_H_large : forall n, 65535 < n -> struct_pack_H n = None.
Proof.
  intros n H. unfold struct_pack_H.
  replace (n <=? 65535) with false by (symmetry; apply Z.leb_gt; lia).
  rewrite andb_false_r. reflexivity.
Qed.

Ltac unfold_io :=
  unfold socks5_connect, sock_connect, sock_sendall, sock_recv, emit,
    set_env, get_env, bind, ret, raise, lift_opt.

(** C5. When the proxy's answer to the method negotiation lacks a byte 1
    equal to 0x00 (it is shorter than 2 bytes, or byte 1 is another
    value), [socks5_connect] fails with the authentication error, and the
    only bytes it ever sent are the greeting 05 01 00: no CONNECT request
    follows. *)
Theorem socks5_connect_auth_rejected :
  forall host port srx sin tx w sl tr m,
    hd_error tx <> Some false ->
    nth_error (firstn 2 m) 1 <> Some 0 ->
    exists s',
      socks5_connect host port
        (mkSt (mkOracle true (Some m :: srx) sin tx w sl) tr)
      = (Raise AuthFailed, s') /\
      trace s' = tr ++ [EvConnect true; EvSend [5; 1; 0]; EvRecv (firstn 2 m)].
Proof.
  intros host port srx sin tx w sl tr m Htx Hm.
  apply status_byte_bad in Hm.
  unfold_io. cbn.
  destruct tx as [|[|] tx']; cbn in *; try congruence;
    rewrite Hm; cbn; eexists; split; try reflexivity;
    rewrite <- !app_assoc; reflexivity.
Qed.

Lemma socks5_connect_auth_rejected_witness :
  hd_error (@nil bool) <> Some false /\ nth_error (firstn 2 [5; 255]) 1 <> Some 0 /\
  exists s',
    socks5_connect [97] 22 (mkSt (mkOracle true [Some [5; 255]] [] [] [] []) [])
    = (Raise AuthFailed, s') /\
    trace s' = [] ++ [EvConnect true; EvSend [5; 1; 0]; EvRecv (firstn 2 [5; 255])].
Proof.
  split; [discriminate|]. split; [cbn; discriminate|].
  apply socks5_connect_auth_rejected; [discriminate | cbn; discriminate].
Defined.

Ltac close_raise :=
  do 3 eexists; split; [reflexivity|];
  split; [cbn [trace env]; rewrite <- ?app_assoc; reflexivity|]; cbn; auto.

(** C8, at a failing input: the host of 128 copies of "é" (code point
    233) is 128 characters but 256 UTF-8 bytes.  [bytes([len(host)])]
    accepts 128, so [socks5_connect] sends a CONNECT request whose length
    byte is 128 followed by all 256 host bytes and the port, and it
    succeeds.  A proxy that reads the host field by its length byte gets
    only the first 128 bytes, a strict prefix of the host: the host name
    is silently truncated. *)
Theorem socks5_connect_utf8_host_truncated :
  str_encode (repeat 233 128) = Some (concat (repeat [195; 169] 128)) /\
  length (concat (repeat [195; 169] 128)) = 256%nat /\
  socks5_connect (repeat 233 128) 22 (init good_proxy)
  = (Ok tt, mkSt (mkOracle true [] [] [] [] [])
              [EvConnect true; EvSend [5; 1; 0]; EvRecv [5; 0];
               EvSend ([5; 1; 0; 3; 128] ++ concat (repeat [195; 169] 128) ++ [0; 22]);
               EvRecv [5; 0; 0; 1; 0; 0; 0; 0; 0; 0]]) /\
  firstn 128 (concat (repeat [195; 169] 128)) <> concat (repeat [195; 169] 128).
Proof.
  split; [vm_compute; reflexivity|].
  split; [vm_compute; reflexivity|].
  split; [vm_compute; reflexivity|].
  intros H. apply (f_equal (@length Z)) in H. vm_compute in H. discriminate.
Qed.

(** A target host of more than 255 characters (code points) makes
    [bytes([len(host)])] raise before the CONNECT request exists:
    [socks5_connect] fails, and what it sent to the proxy is at most the
    greeting 05 01 00, so no CONNECT request is transmitted. *)
Theorem socks5_connect_long_host :
  forall host port s,
    (255 < length host)%nat ->
    exists e s' new,
      socks5_connect host port s = (Raise e, s') /\
      trace s' = trace s ++ new /\
      (sent new = [] \/ sent new = [5; 1; 0]).
Proof.
  intros host port s Hlen.
  assert (Hb : py_bytes1 (Z.of_nat (length host)) = None)
    by (apply py_bytes1_large; lia).
  destruct s as [[c srx sin tx w sl] tr].
  unfold_io. rewrite Hb. split_matches; close_raise.
Qed.

(** A port beyond 16 bits makes [struct.pack] raise: [socks5_connect] never
    succeeds and never sends more than the greeting.  The first event is
    always the connection attempt, and the error is [struct.error] as soon
    as the greeting was accepted and the host encoded. *)
Lemma socks5_connect_large_port :
  forall host port s,
    65535 < port ->
    exists e s' new,
      socks5_connect host port s = (Raise e, s') /\
      trace s' = trace s ++ new /\
      (sent new = [] \/ sent new = [5; 1; 0]) /\
      hd_error new = Some (EvConnect (connect_ok (env s))) /\
      stdout_bytes new = [] /\
      (forall m srx',
         connect_ok (env s) = true ->
         hd_error (tx_ok (env s)) <> Some false ->
         sock_rx (env s) = Some m :: srx' ->
         nth_error (firstn 2 m) 1 = Some 0 ->
         (length host <= 255)%nat ->
         str_encode host <> None ->
         e = StructError).
Proof.
  intros host port s Hp.
  pose proof (struct_pack_H_large port Hp) as Hs.
  destruct s as [[c srx sin tx w sl] tr].
  unfold_io. rewrite Hs.
  split_matches;
    (do 3 eexists; split; [reflexivity|];
     split; [cbn [trace env]; rewrite <- ?app_assoc; reflexivity|];
     split; [cbn; auto|]; split; [reflexivity|]; split; [reflexivity|]);
    intros m' srx' Hc Htx Hrx Hm' Hl Hh; cbn in *;
    try (injection Hrx as <- <-); subst; cbn in *;
    try congruence; try reflexivity;
    try (injection Hm' as ->;
         rewrite (proj2 (bytes_eqb_true [0] [0]) eq_refl) in *; discriminate).
  all: match goal with
       | H : py_bytes1 _ = None |- _ =>
           rewrite py_bytes1_small in H by lia; discriminate
       end.
Qed.

Lemma socks5_connect_long_host_witness :
  (255 < length (repeat 97 256))%nat /\
  exists e s' new,
    socks5_connect (repeat 97 256) 22 (init good_proxy) = (Raise e, s') /\
    trace s' = trace (init good_proxy) ++ new /\
    (sent new = [] \/ sent new = [5; 1; 0]).
Proof.
  split; [rewrite repeat_length; lia|].
  apply socks5_connect_long_host. rewrite repeat_length. lia.
Defined.

Lemma sent_app : forall a b, sent (a ++ b) = sent a ++ sent b.
Proof.
  induction a as [|ev a IH]; intros b; [reflexivity|].
  destruct ev; cbn; rewrite ?IH, ?app_assoc; reflexivity.
Qed.

Lemma stdout_bytes_app : forall a b,
  stdout_bytes (a ++ b) = stdout_bytes a ++ stdout_bytes b.
Proof.
  induction a as [|ev a IH]; intros b; [reflexivity|].
  destruct ev; cbn; rewrite ?IH, ?app_assoc; reflexivity.
Qed.

Lemma stdin_bytes_app : forall a b,
  stdin_bytes (a ++ b) = stdin_bytes a ++ stdin_bytes b.
Proof.
  induction a as [|ev a IH]; intros b; [reflexivity|].
  destruct ev; cbn; rewrite ?IH, ?app_assoc; reflexivity.
Qed.

(** The handshake never touches standard output. *)
Lemma socks5_connect_no_stdout : forall host port s,
  let (r, s') := socks5_connect host port s in
  exists new, trace s' = trace s ++ new /\ filter is_stdout new = [].
Proof.
  intros host port s. destruct s as [[c srx sin tx w sl] tr].
  unfold_io. split_matches;
    eexists; (split; [cbn [trace env]; rewrite <- ?app_assoc; reflexivity|]);
    reflexivity.
Qed.

(** Once connected, the greeting is the first thing sent. *)
Lemma socks5_connect_greeting_sent : forall host port s,
  connect_ok (env s) = true ->
  hd_error (tx_ok (env s)) <> Some false ->
  exists rest,
    trace (snd (socks5_connect host port s))
    = trace s ++ EvConnect true :: EvSend [5; 1; 0] :: rest.
Proof.
  intros host port s Hc Htx. destruct s as [[c srx sin tx w sl] tr].
  cbn in Hc, Htx. subst c.
  unfold_io. destruct tx as [|[|] tx']; cbn in Htx; try congruence;
    split_matches; eexists; cbn [trace env snd]; rewrite <- ?app_assoc;
    reflexivity.
Qed.

(** ** The [__main__] block *)

(** C10. With exactly two arguments and a port string that [int()] parses
    to a value above 65535, the script does not reject the port while
    handling its arguments: its first action is the connection attempt to
    the proxy, followed by the greeting whenever the connection succeeds.
    No CONNECT request is ever sent and nothing reaches standard output;
    the run ends with a diagnostic on standard error and exit status 1, and
    the error is [struct.error] from packing the port whenever the proxy
    accepted the greeting and the host fits the length byte and encodes. *)
Theorem main_large_port :
  forall py_int prog host port_s port fuel s,
    py_int port_s = Some port ->
    65535 < port ->
    exists s' new e,
      main py_int [prog; host; port_s] fuel s = (Ok 1, s') /\
      trace s' = trace s ++ new /\
      hd_error new = Some (EvConnect (connect_ok (env s))) /\
      (connect_ok (env s) = true -> hd_error (tx_ok (env s)) <> Some false ->
       nth_error new 1 = Some (EvSend [5; 1; 0])) /\
      (sent new = [] \/ sent new = [5; 1; 0]) /\
      stdout_bytes new = [] /\
      last new (EvConnect false) = EvStderr (ProxyErr e) /\
      (forall m srx',
         connect_ok (env s) = true ->
         hd_error (tx_ok (env s)) <> Some false ->
         sock_rx (env s) = Some m :: srx' ->
         nth_error (firstn 2 m) 1 = Some 0 ->
         (length host <= 255)%nat ->
         str_encode host <> None ->
         e = StructError).
Proof.
  intros py_int prog host port_s port fuel s Hpi Hp.
  destruct (socks5_connect_large_port host port s Hp)
    as (e & s1 & new & Hrun & Ht & Hsent & Hhd & Hout & Hstruct).
  exists (mkSt (env s1) (trace s1 ++ [EvStderr (ProxyErr e)])),
         (new ++ [EvStderr (ProxyErr e)]), e.
  unfold main. rewrite Hpi. unfold try_except, bind. rewrite Hrun.
  split; [reflexivity|].
  split; [cbn; rewrite Ht, app_assoc; reflexivity|].
  destruct new as [|ev new]; [discriminate|].
  split; [exact Hhd|].
  split.
  { intros Hc Htx.
    pose proof (socks5_connect_greeting_sent host port s Hc Htx) as (rest & Hg).
    rewrite Hrun in Hg. cbn in Hg. rewrite Ht in Hg.
    apply app_inv_head in Hg. rewrite Hg. reflexivity. }
  split; [rewrite sent_app; cbn; rewrite app_nil_r; exact Hsent|].
  split; [rewrite stdout_bytes_app, Hout; reflexivity|].
  split; [rewrite last_app_ne by discriminate; reflexivity|].
  exact Hstruct.
Qed.

Lemma main_large_port_witness :
  py_int_ascii [55; 48; 48; 48; 48] = Some 70000 /\ 65535 < 70000 /\
  exists s' new e,
    main py_int_ascii [[]; [97]; [55; 48; 48; 48; 48]] 1 (init good_proxy)
      = (Ok 1, s') /\
    trace s' = trace (init good_proxy) ++ new /\
    hd_error new = Some (EvConnect (connect_ok (env (init good_proxy)))) /\
    (connect_ok (env (init good_proxy)) = true ->
     hd_error (tx_ok (env (init good_proxy))) <> Some false ->
     nth_error new 1 = Some (EvSend [5; 1; 0])) /\
    (sent new = [] \/ sent new = [5; 1; 0]) /\
    stdout_bytes new = [] /\
    last new (EvConnect false) = EvStderr (ProxyErr e) /\
    (forall m srx',
       connect_ok (env (init good_proxy)) = true ->
       hd_error (tx_ok (env (init good_proxy))) <> Some false ->
       sock_rx (env (init good_proxy)) = Some m :: srx' ->
       nth_error (firstn 2 m) 1 = Some 0 ->
       (length [97] <= 255)%nat ->
       str_encode [97] <> None ->
       e = StructError).
Proof.
  split; [vm_compute; reflexivity|]. split; [lia|].
  apply (main_large_port py_int_ascii [] [97] [55; 48; 48; 48; 48] 70000);
    [vm_compute; reflexivity | lia].
Defined.

(** C9. The script's exit status is 0 or 1, and it is 0 exactly when the
    arguments were two, the port parsed, the handshake succeeded and the
    forwarding loop ended at an end-of-stream; every failure (usage error,
    unparsable port, any handshake error, any forwarding error) gives 1.
    No exception escapes [main]; a run that has not finished ([Stuck]: the
    loop still running) has no status yet. *)
Theorem main_exit_status :
  forall py_int argv fuel s,
    match fst (main py_int argv fuel s) with
    | Ok c =>
        (c = 0 \/ c = 1) /\
        (c = 0 <->
         exists prog host port_s port s1 s2,
           argv = [prog; host; port_s] /\
           py_int port_s = Some port /\
           socks5_connect host port s = (Ok tt, s1) /\
           forward_data fuel s1 = (Ok tt, s2))
    | Raise _ => False
    | Stuck => True
    end.
Proof.
  intros py_int argv fuel s.
  destruct argv as [|prog [|host [|port_s [|x rest]]]];
    try (cbn; split; [right; reflexivity|];
         split; [discriminate|];
         intros (? & ? & ? & ? & ? & ? & Ha & _); discriminate).
  unfold main.
  destruct (py_int port_s) as [port|] eqn:Hpi.
  - unfold try_except, bind.
    destruct (socks5_connect host port s) as [[[]| e |] s1] eqn:H1.
    + destruct (forward_data fuel s1) as [[[]| e |] s2] eqn:H2; cbn.
      * split; [left; reflexivity|]. split; [|reflexivity]. intros _.
        exists prog, host, port_s, port, s1, s2. auto.
      * split; [right; reflexivity|]. split; [discriminate|].
        intros (p' & h' & ps' & pt & s1' & s2' & Ha & Hp' & Hc & Hf).
        injection Ha as <- <- <-. rewrite Hpi in Hp'. injection Hp' as <-.
        rewrite H1 in Hc. injection Hc as <-. congruence.
      * exact I.
    + cbn. split; [right; reflexivity|]. split; [discriminate|].
      intros (p' & h' & ps' & pt & s1' & s2' & Ha & Hp' & Hc & Hf).
      injection Ha as <- <- <-. rewrite Hpi in Hp'. injection Hp' as <-.
      congruence.
    + exact I.
  - cbn. split; [right; reflexivity|]. split; [discriminate|].
    intros (p' & h' & ps' & pt & s1' & s2' & Ha & Hp' & _).
    injection Ha as <- <- <-. congruence.
Qed.

(** C6. When the handshake fails, whatever the reason (proxy unreachable,
    greeting refused, CONNECT refused, malformed reply, unencodable
    request), the script writes nothing to standard output: its only
    output after the failure is the diagnostic on standard error, and it
    exits with status 1. *)
Theorem main_handshake_failure_silent :
  forall py_int prog host port_s port fuel s e s1,
    py_int port_s = Some port ->
    socks5_connect host port s = (Raise e, s1) ->
    exists new,
      main py_int [prog; host; port_s] fuel s
        = (Ok 1, mkSt (env s1) (trace s1 ++ [EvStderr (ProxyErr e)])) /\
      trace s1 = trace s ++ new /\
      filter is_stdout (new ++ [EvStderr (ProxyErr e)]) = [].
Proof.
  intros py_int prog host port_s port fuel s e s1 Hpi Hrun.
  pose proof (socks5_connect_no_stdout host port s) as Hs.
  rewrite Hrun in Hs. destruct Hs as (new & Ht & Hf).
  exists new. split; [|split; [exact Ht|]].
  - unfold main. rewrite Hpi. unfold try_except, bind. rewrite Hrun.
    reflexivity.
  - rewrite filter_app, Hf. reflexivity.
Qed.

Lemma main_handshake_failure_silent_witness :
  py_int_ascii [50; 50] = Some 22 /\
  socks5_connect [97] 22 (init unreachable_proxy)
    = (Raise OSError, mkSt unreachable_proxy [EvConnect false]) /\
  exists new,
    main py_int_ascii [[]; [97]; [50; 50]] 1 (init unreachable_proxy)
      = (Ok 1, mkSt unreachable_proxy
                 ([EvConnect false] ++ [EvStderr (ProxyErr OSError)])) /\
    [EvConnect false] = trace (init unreachable_proxy) ++ new /\
    filter is_stdout (new ++ [EvStderr (ProxyErr OSError)]) = [].
Proof.
  split; [vm_compute; reflexivity|].
  split; [vm_compute; reflexivity|].
  apply (main_handshake_failure_silent py_int_ascii [] [97] [50; 50] 22 1
           (init unreachable_proxy) OSError (mkSt unreachable_proxy [EvConnect false]));
    vm_compute; reflexivity.
Defined.

(** ** C2: the CONNECT reply *)

Lemma struct_pack_H_small : forall n,
  0 <= n <= 65535 -> struct_pack_H n = Some [Z.shiftr n 8; Z.land n 255].
Proof.
  intros n H. unfold struct_pack_H.
  replace (0 <=? n) with true by (symmetry; apply Z.leb_le; lia).
  replace (n <=? 65535) with true by (symmetry; apply Z.leb_le; lia).
  reflexivity.
Qed.

(** C2, counterexample: a CONNECT reply of only 2 bytes, 05 00, is taken
    as success and the proxy connection is returned as the tunnel. *)
Lemma socks5_connect_short_reply_accepted :
  socks5_connect [97] 22 (init short_reply_proxy)
  = (Ok tt, mkSt (mkOracle true [] [] [] [] [])
              [EvConnect true; EvSend [5; 1; 0]; EvRecv [5; 0];
               EvSend [5; 1; 0; 3; 1; 97; 0; 22]; EvRecv [5; 0]])
  /\ (length [5; 0] < 10)%nat.
Proof. split; [vm_compute; reflexivity | cbn; lia]. Qed.

(** C2, as the code has it.  After an accepted greeting and a well-formed
    request, the outcome depends only on byte 1 of what the single
    [recv(10)] returned, not on its length: 0x00 there is success (even
    for a reply of 2 to 9 bytes), another value is the connection-failed
    error carrying it, and a reply of fewer than 2 bytes fails with the
    [IndexError] raised while formatting that error. *)
Theorem socks5_connect_reply_check :
  forall host port srx sin tx w sl tr m r,
    ~ In false (firstn 2 tx) ->
    nth_error (firstn 2 m) 1 = Some 0 ->
    (length host <= 255)%nat ->
    str_encode host <> None ->
    0 <= port <= 65535 ->
    fst (socks5_connect host port
           (mkSt (mkOracle true (Some m :: Some r :: srx) sin tx w sl) tr))
    = match nth_error (firstn 10 r) 1 with
      | Some 0 => Ok tt
      | Some b => Raise (ConnectFailed b)
      | None => Raise IndexError
      end.
Proof.
  intros host port srx sin tx w sl tr m r Htx Hm Hl Hh Hp.
  destruct m as [|a0 [|b0 m']]; cbn in Hm; try discriminate.
  injection Hm as ->.
  destruct (str_encode host) as [hb|] eqn:He; [|congruence].
  unfold_io.
  rewrite (py_bytes1_small (Z.of_nat (length host))) by lia.
  rewrite He, (struct_pack_H_small port Hp).
  assert (H00 : bytes_eqb [0] [0] = true) by (apply bytes_eqb_true; reflexivity).
  destruct tx as [|[|] [|[|] tx']]; cbn in Htx; try (exfalso; tauto);
    destruct r as [|a [|b r]]; cbn -[bytes_eqb]; rewrite ?H00; cbn -[bytes_eqb];
    try reflexivity;
    destruct (bytes_eqb [b] [0]) eqn:Eb; cbn;
    try (apply bytes_eqb_true in Eb; injection Eb as ->; reflexivity);
    destruct b; try reflexivity; rewrite H00 in Eb; discriminate.
Qed.

Lemma socks5_connect_reply_check_witness :
  ~ In false (firstn 2 (@nil bool)) /\ nth_error (firstn 2 [5; 0]) 1 = Some 0 /\
  (length [97] <= 255)%nat /\ str_encode [97] <> None /\ 0 <= 22 <= 65535 /\
  fst (socks5_connect [97] 22
         (mkSt (mkOracle true [Some [5; 0]; Some [5; 0]] [] [] [] []) []))
  = match nth_error (firstn 10 [5; 0]) 1 with
    | Some 0 => Ok tt
    | Some b => Raise (ConnectFailed b)
    | None => Raise IndexError
    end.
Proof.
  split; [cbn; tauto|]. split; [reflexivity|]. split; [cbn; lia|].
  split; [discriminate|]. split; [lia|].
  apply socks5_connect_reply_check;
    [cbn; tauto | reflexivity | cbn; lia | discriminate | lia].
Defined.

(** ** C1: the CONNECT request *)

Lemma str_encode_ascii : forall host,
  Forall (fun c => 0 <= c < 128) host -> str_encode host = Some host.
Proof.
  induction host as [|c host IH]; intros H; [reflexivity|].
  inversion H as [|? ? Hc Hrest]; subst. cbn.
  unfold utf8_encode_cp.
  replace (c <? 128) with true by (symmetry; apply Z.ltb_lt; lia).
  rewrite (IH Hrest). reflexivity.
Qed.

(** The two port bytes are the high and the low byte of the port. *)
Lemma struct_pack_H_big_endian : forall n,
  0 <= n <= 65535 ->
  exists hi lo, struct_pack_H n = Some [hi; lo] /\
    0 <= hi <= 255 /\ 0 <= lo <= 255 /\ n = hi * 256 + lo.
Proof.
  intros n H. rewrite struct_pack_H_small by exact H.
  exists (Z.shiftr n 8), (Z.land n 255). split; [reflexivity|].
  rewrite Z.shiftr_div_pow2 by lia.
  change (Z.land n 255) with (Z.land n (Z.ones 8)).
  rewrite Z.land_ones by lia. change (2 ^ 8) with 256.
  Z.div_mod_to_equations. repeat split; lia.
Qed.

(** For a host made of ASCII characters (one byte each), the bytes sent
    are the greeting followed by the CONNECT request with a length byte
    equal to the host's byte length, the host bytes and the two port
    bytes. *)
Lemma socks5_connect_request_ascii :
  forall host port srx sin tx w sl tr m,
    Forall (fun c => 0 <= c < 128) host ->
    (length host <= 255)%nat ->
    0 <= port <= 65535 ->
    ~ In false (firstn 2 tx) ->
    nth_error (firstn 2 m) 1 = Some 0 ->
    exists new,
      trace (snd (socks5_connect host port
                    (mkSt (mkOracle true (Some m :: srx) sin tx w sl) tr)))
      = tr ++ new /\
      sent new = [5; 1; 0] ++ [5; 1; 0; 3] ++ [Z.of_nat (length host)] ++
                 host ++ [Z.shiftr port 8; Z.land port 255].
Proof.
  intros host port srx sin tx w sl tr m Ha Hl Hp Htx Hm.
  destruct m as [|a0 [|b0 m']]; cbn in Hm; try discriminate.
  injection Hm as ->.
  unfold_io.
  rewrite (py_bytes1_small (Z.of_nat (length host))) by lia.
  rewrite (str_encode_ascii host Ha), (struct_pack_H_small port Hp).
  assert (H00 : bytes_eqb [0] [0] = true) by (apply bytes_eqb_true; reflexivity).
  destruct tx as [|[|] [|[|] tx']]; cbn in Htx; try (exfalso; tauto);
    cbn -[bytes_eqb]; rewrite ?H00;
    repeat (cbn -[bytes_eqb];
            match goal with
            | |- context [bytes_eqb ?a ?b] => destruct (bytes_eqb a b)
            | |- context [match ?x with _ => _ end] =>
                lazymatch x with
                | context [match _ with _ => _ end] => fail
                | _ => destruct x
                end
            end);
    eexists; (split; [rewrite <- ?app_assoc; reflexivity|]);
    cbn; rewrite ?app_nil_r; reflexivity.
Qed.

(** C1, at a failing input: the host "é" (code point 233) is one character
    but two UTF-8 bytes.  The request carries the length byte 1 (the
    character count) followed by the two bytes C3 A9, so the length byte
    is not the host's byte length. *)
Theorem socks5_connect_nonascii_length_byte :
  str_encode [233] = Some [195; 169] /\
  socks5_connect [233] 22 (init good_proxy)
  = (Ok tt, mkSt (mkOracle true [] [] [] [] [])
              [EvConnect true; EvSend [5; 1; 0]; EvRecv [5; 0];
               EvSend [5; 1; 0; 3; 1; 195; 169; 0; 22];
               EvRecv [5; 0; 0; 1; 0; 0; 0; 0; 0; 0]]).
Proof. split; vm_compute; reflexivity. Qed.

(** ** C3: byte fidelity of the forwarding loop *)

Lemma received_app : forall a b, received (a ++ b) = received a ++ received b.
Proof.
  induction a as [|ev a IH]; intros b; [reflexivity|].
  destruct ev; cbn; rewrite ?IH, ?app_assoc; reflexivity.
Qed.

Lemma forward_iter_fidelity : forall s,
  let (r, s') := forward_iter s in
  exists new, trace s' = trace s ++ new /\
    fidelity (full_writes (env s)) r new /\
    (full_writes (env s) = true -> full_writes (env s') = true).
Proof.
  intros s. run_st s; subst; cbn [trace env] in *;
    rewrite <- ?app_assoc;
    first [ exists []; rewrite app_nil_r; split; [reflexivity|]
          | eexists; split; [reflexivity|] ];
    unfold fidelity, full_writes; cbn;
    repeat split; intros; try discriminate; rewrite ?app_nil_r; auto;
    try (exists []; rewrite ?app_nil_r; reflexivity);
    try (eexists; rewrite ?app_nil_r; reflexivity).
Qed.

Lemma fidelity_app {A} (full : bool) (r : res A) (l1 l2 : list event) :
  fidelity full (Ok false) l1 -> fidelity full r l2 -> fidelity full r (l1 ++ l2).
Proof.
  unfold fidelity. intros [Ho1 Hi1] [Ho2 Hi2]. split.
  - intros Hf. rewrite stdout_bytes_app, received_app, Ho1, Ho2 by exact Hf.
    reflexivity.
  - rewrite stdin_bytes_app, sent_app, Hi1.
    destruct r; try (rewrite Hi2; reflexivity).
    destruct Hi2 as (pending & Hp). exists pending.
    rewrite Hp, app_assoc. reflexivity.
Qed.

Lemma forward_loop_fidelity : forall fuel s,
  let (r, s') := forward_loop fuel s in
  exists new, trace s' = trace s ++ new /\ fidelity (full_writes (env s)) r new.
Proof.
  induction fuel as [|fuel IH]; intros s; cbn.
  - exists []. rewrite app_nil_r. split; [reflexivity|].
    split; reflexivity.
  - unfold bind. pose proof (forward_iter_fidelity s) as Hi.
    destruct (forward_iter s) as [[[|]| e |] s1]; cbn in *;
      destruct Hi as (new1 & Ht1 & Hf1 & Hw1).
    + exists new1. split; [exact Ht1|].
      destruct Hf1 as [Ho Hs]. split; assumption.
    + specialize (IH s1). destruct (forward_loop fuel s1) as [r s2].
      destruct IH as (new2 & Ht2 & Hf2).
      exists (new1 ++ new2). split.
      * rewrite Ht2, Ht1, app_assoc. reflexivity.
      * apply fidelity_app; [exact Hf1|].
        destruct (full_writes (env s)) eqn:Ef.
        -- rewrite (Hw1 eq_refl) in Hf2. exact Hf2.
        -- destruct Hf2 as [_ Hs2]. split; [discriminate | exact Hs2].
    + exists new1. auto.
    + exists new1. auto.
Qed.

(** The direction from standard input to the tunnel is exact: every byte
    read from standard input is sent to the tunnel, in order, except the
    last chunk when [sendall] itself fails.  The direction from the tunnel
    to standard output is exact as long as every [os.write] writes all it
    is given. *)
Lemma forward_data_fidelity : forall fuel s,
  let (r, s') := forward_data fuel s in
  exists new, trace s' = trace s ++ new /\ fidelity (full_writes (env s)) r new.
Proof.
  intros fuel s. unfold forward_data, try_except.
  pose proof (forward_loop_fidelity fuel s) as H.
  destruct (forward_loop fuel s) as [[[]| e |] s1]; auto.
  destruct H as (new & Ht & Hfid). destruct Hfid as [Ho Hs]. cbn in *.
  exists (new ++ [EvStderr (ForwardErr e)]). split.
  - rewrite Ht, app_assoc. reflexivity.
  - split.
    + intros Hf. rewrite stdout_bytes_app, received_app, Ho by exact Hf.
      reflexivity.
    + destruct Hs as (pending & Hp). exists pending.
      rewrite stdin_bytes_app, sent_app, Hp. cbn. rewrite !app_nil_r.
      reflexivity.
Qed.

(** C3, at a failing input: the tunnel delivers the two bytes 01 02, and
    [os.write] on standard output writes only the first of them (it
    returns 1).  The script ignores that count, reads end-of-stream from
    the tunnel next and returns: byte 02 was read from the tunnel but never
    written to standard output. *)
Theorem forward_data_partial_write_drops :
  forward_data 2 (init partial_write)
  = (Ok tt, mkSt (mkOracle true [] [] [] [] [])
              [EvSelect true false; EvRecv [1; 2]; EvStdout [1];
               EvSelect true false; EvRecv []]) /\
  received [EvSelect true false; EvRecv [1; 2]; EvStdout [1];
            EvSelect true false; EvRecv []] = [1; 2] /\
  stdout_bytes [EvSelect true false; EvRecv [1; 2]; EvStdout [1];
                EvSelect true false; EvRecv []] = [1].
Proof. split; [vm_compute; reflexivity | split; reflexivity]. Qed.

(** ** Further properties of the handshake *)

(** [socks5_connect] never looks at byte 0 (the version echo) of either
    reply: changing it changes neither the outcome nor the bytes sent. *)
Theorem socks5_connect_ignores_version_bytes :
  forall host port c srx sin tx w sl tr a a' m b b' r,
    let run x y :=
      socks5_connect host port
        (mkSt (mkOracle c (Some (x :: m) :: Some (y :: r) :: srx) sin tx w sl) tr) in
    fst (run a b) = fst (run a' b') /\
    sent (trace (snd (run a b))) = sent (trace (snd (run a' b'))).
Proof.
  intros host port c srx sin tx w sl tr a a' m b b' r run. subst run.
  unfold_io. split_matches_b;
    split; try reflexivity; rewrite ?sent_app; reflexivity.
Qed.

Lemma py_bytes1_some : forall n l,
  py_bytes1 n = Some l -> l = [n] /\ 0 <= n <= 255.
Proof.
  intros n l H. unfold py_bytes1 in H.
  destruct (0 <=? n) eqn:E1, (n <=? 255) eqn:E2; cbn in H; try discriminate.
  injection H as <-. apply Z.leb_le in E1, E2. auto.
Qed.

Lemma struct_pack_H_out : forall n,
  ~ (0 <= n <= 65535) -> struct_pack_H n = None.
Proof.
  intros n H. unfold struct_pack_H.
  destruct (0 <=? n) eqn:E1, (n <=? 65535) eqn:E2; try reflexivity.
  apply Z.leb_le in E1, E2. lia.
Qed.

(** ** The handshake touches only the proxy connection *)

Lemma sock_only_ret : forall A (a : A), sock_only (ret a).
Proof. intros A a s. exists []. rewrite app_nil_r. auto. Qed.

Lemma sock_only_raise : forall A e, sock_only (@raise A e).
Proof. intros A e s. exists []. rewrite app_nil_r. auto. Qed.

Lemma sock_only_lift_opt : forall A e (o : option A), sock_only (lift_opt e o).
Proof.
  intros A e [a|]; [apply sock_only_ret | apply sock_only_raise].
Qed.

Lemma sock_only_bind : forall A B (m : M A) (k : A -> M B),
  sock_only m -> (forall a, sock_only (k a)) -> sock_only (bind m k).
Proof.
  intros A B m k Hm Hk s. unfold bind.
  destruct (Hm s) as (n1 & Ht1 & Hf1 & Hi1 & Hw1 & Hs1).
  destruct (m s) as [[a| e |] s1]; cbn in *.
  - destruct (Hk a s1) as (n2 & Ht2 & Hf2 & Hi2 & Hw2 & Hs2).
    exists (n1 ++ n2). rewrite Ht2, Ht1, <- app_assoc, forallb_app, Hf1, Hf2.
    rewrite Hi2, Hw2, Hs2. auto.
  - exists n1. auto.
  - exists n1. auto.
Qed.

Lemma sock_only_connect : sock_only sock_connect.
Proof.
  intros [o tr]. unfold sock_connect, get_env, emit, bind, ret, raise.
  cbn. exists [EvConnect (connect_ok o)].
  destruct (connect_ok o); cbn; auto.
Qed.

Lemma sock_only_sendall : forall d, sock_only (sock_sendall d).
Proof.
  intros d [o tr]. unfold sock_sendall, get_env, emit, set_env, bind, raise.
  cbn. destruct (tx_ok o) as [|[|] rest]; cbn.
  - exists [EvSend d]. auto.
  - exists [EvSend d]. auto.
  - exists []. rewrite app_nil_r. auto.
Qed.

Lemma sock_only_recv : forall n, sock_only (sock_recv n).
Proof.
  intros n [o tr]. unfold sock_recv, get_env, emit, set_env, bind, ret, raise.
  cbn. destruct (sock_rx o) as [|[d|] rest]; cbn.
  - exists [EvRecv []]. auto.
  - exists [EvRecv (firstn n d)]. auto.
  - exists []. rewrite app_nil_r. auto.
Qed.

Create HintDb sock_only.
#[local] Hint Resolve sock_only_ret sock_only_raise sock_only_lift_opt
  sock_only_connect sock_only_sendall sock_only_recv : sock_only.

(** [socks5_connect] only uses the proxy connection: whatever happens, it
    adds only connect, send and receive events to the trace, and it never
    reads standard input, writes standard output or calls [select]. *)
Theorem socks5_connect_sock_only : forall host port,
  sock_only (socks5_connect host port).
Proof.
  intros host port. unfold socks5_connect.
  repeat (apply sock_only_bind; eauto with sock_only; intros);
    repeat match goal with
           | |- sock_only (if ?b then _ else _) => destruct b
           | |- sock_only (_ <- _ ;; _) => apply sock_only_bind; eauto with sock_only; intros
           end; eauto with sock_only.
Qed.

(** ** Errors while building the CONNECT request *)

(** After an accepted method negotiation, a request that cannot be built
    raises before anything more is sent: [bytes([len(host)])] raises
    [ValueError] for a host longer than 255 characters, otherwise
    [host.encode()] raises [UnicodeEncodeError] for a host that is not
    encodable, otherwise [struct.pack] raises [struct.error] for a port
    outside 0..65535.  The trace then ends with the reply to the greeting:
    no CONNECT request is sent and no second reply is read. *)
Theorem socks5_connect_request_error :
  forall host port srx sin tx w sl tr m,
    hd_error tx <> Some false ->
    nth_error (firstn 2 m) 1 = Some 0 ->
    (255 < length host)%nat \/ str_encode host = None \/ ~ (0 <= port <= 65535) ->
    socks5_connect host port (mkSt (mkOracle true (Some m :: srx) sin tx w sl) tr)
    = (Raise (request_error host),
       mkSt (mkOracle true srx sin (tl tx) w sl)
         (tr ++ [EvConnect true; EvSend [5; 1; 0]; EvRecv (firstn 2 m)])).
Proof.
  intros host port srx sin tx w sl tr m Htx Hm Hbad.
  assert (H00 : bytes_eqb [0] [0] = true) by (apply bytes_eqb_true; reflexivity).
  destruct m as [|a0 [|b0 m']]; cbn in Hm; try discriminate.
  injection Hm as ->.
  unfold request_error.
  destruct (Nat.ltb_spec 255 (length host)) as [Hl|Hl].
  - unfold_io.
    rewrite (py_bytes1_large (Z.of_nat (length host))) by lia.
    destruct tx as [|[|] tx']; cbn in Htx; try congruence;
      cbn -[bytes_eqb]; rewrite H00; cbn; rewrite <- !app_assoc; reflexivity.
  - unfold_io.
    rewrite (py_bytes1_small (Z.of_nat (length host))) by lia.
    destruct (str_encode host) as [hb|] eqn:He.
    + rewrite struct_pack_H_out
        by (destruct Hbad as [?|[?|?]]; [lia|discriminate|assumption]).
      destruct tx as [|[|] tx']; cbn in Htx; try congruence;
        cbn -[bytes_eqb]; rewrite H00; cbn; rewrite <- !app_assoc; reflexivity.
    + destruct tx as [|[|] tx']; cbn in Htx; try congruence;
        cbn -[bytes_eqb]; rewrite H00; cbn; rewrite <- !app_assoc; reflexivity.
Qed.

Lemma socks5_connect_request_error_witness :
  socks5_connect [97] 70000 (mkSt (mkOracle true [Some [5; 0]] [] [] [] []) [])
  = (Raise (request_error [97]),
     mkSt (mkOracle true [] [] (tl []) [] [])
       ([] ++ [EvConnect true; EvSend [5; 1; 0]; EvRecv (firstn 2 [5; 0])])).
Proof.
  apply socks5_connect_request_error.
  - discriminate.
  - reflexivity.
  - right. right. lia.
Defined.

(** ** The [__main__] block: errors while forwarding *)

(** An error in the forwarding loop after a successful handshake is
    reported twice on standard error, first by [forward_data]'s own handler
    and then, after the re-raise, by [__main__]'s; the exit status is 1. *)
Theorem main_forward_error : forall py_int prog host port_s port fuel s s1 e s2,
  py_int port_s = Some port ->
  socks5_connect host port s = (Ok tt, s1) ->
  forward_loop fuel s1 = (Raise e, s2) ->
  main py_int [prog; host; port_s] fuel s
  = (Ok 1, mkSt (env s2)
             (trace s2 ++ [EvStderr (ForwardErr e); EvStderr (ProxyErr e)])).
Proof.
  intros py_int prog host port_s port fuel s s1 e s2 Hp Hc Hf.
  unfold main. rewrite Hp. unfold try_except, bind at 1. rewrite Hc.
  unfold forward_data, try_except, bind at 1. rewrite Hf.
  cbn. rewrite <- app_assoc. reflexivity.
Qed.

Lemma main_forward_error_witness :
  main py_int_ascii [[]; [97]; [50; 50]] 1 (init broken_tunnel)
  = (Ok 1,
     mkSt (env (mkSt (mkOracle true [] [] [] [] [])
                  [EvConnect true; EvSend [5; 1; 0]; EvRecv [5; 0];
                   EvSend [5; 1; 0; 3; 1; 97; 0; 22];
                   EvRecv [5; 0; 0; 1; 0; 0; 0; 0; 0; 0]; EvSelect true false]))
          (trace (mkSt (mkOracle true [] [] [] [] [])
                    [EvConnect true; EvSend [5; 1; 0]; EvRecv [5; 0];
                     EvSend [5; 1; 0; 3; 1; 97; 0; 22];
                     EvRecv [5; 0; 0; 1; 0; 0; 0; 0; 0; 0]; EvSelect true false])
           ++ [EvStderr (ForwardErr OSError); EvStderr (ProxyErr OSError)])).
Proof.
  apply (main_forward_error py_int_ascii [] [97] [50; 50] 22 1 (init broken_tunnel)
           (mkSt (mkOracle true [None] [] [] [] [(true, false)])
              [EvConnect true; EvSend [5; 1; 0]; EvRecv [5; 0];
               EvSend [5; 1; 0; 3; 1; 97; 0; 22];
               EvRecv [5; 0; 0; 1; 0; 0; 0; 0; 0; 0]]));
    vm_compute; reflexivity.
Defined.

(** ** Standard output only ever carries tunnel bytes, in order *)

Lemma subseq_refl {A} (l : list A) : subseq l l.
Proof. induction l; constructor; assumption. Qed.

Lemma subseq_nil_l {A} (l : list A) : subseq [] l.
Proof. induction l; constructor; assumption. Qed.

Lemma subseq_firstn {A} (k : nat) (l : list A) : subseq (firstn k l) l.
Proof.
  revert k. induction l as [|x l IH]; intros [|k]; cbn.
  - constructor.
  - constructor.
  - apply subseq_nil_l.
  - apply subseq_keep. apply IH.
Qed.

Lemma subseq_app {A} (a b c d : list A) :
  subseq a b -> subseq c d -> subseq (a ++ c) (b ++ d).
Proof.
  intros H1 H2. induction H1; cbn.
  - exact H2.
  - apply subseq_skip. assumption.
  - apply subseq_keep. assumption.
Qed.

Lemma forward_iter_stdout_subseq : forall s,
  let (r, s') := forward_iter s in
  exists new, trace s' = trace s ++ new /\
    subseq (stdout_bytes new) (received new).
Proof.
  intros s. run_st s; subst; cbn [trace env] in *;
    rewrite <- ?app_assoc;
    first [ exists []; rewrite app_nil_r; split; [reflexivity|]
          | eexists; split; [reflexivity|] ];
    cbn; rewrite ?app_nil_r;
    first [ apply subseq_nil_l | apply subseq_refl | apply subseq_firstn
          | apply subseq_app; [apply subseq_firstn | apply subseq_nil_l] ].
Qed.

Lemma forward_loop_stdout_subseq : forall fuel s,
  let (r, s') := forward_loop fuel s in
  exists new, trace s' = trace s ++ new /\
    subseq (stdout_bytes new) (received new).
Proof.
  induction fuel as [|fuel IH]; intros s; cbn.
  - exists []. rewrite app_nil_r. split; [reflexivity | constructor].
  - unfold bind. pose proof (forward_iter_stdout_subseq s) as Hi.
    destruct (forward_iter s) as [[[|]| e |] s1]; cbn in *;
      destruct Hi as (new1 & Ht1 & Hs1); try (exists new1; auto; fail).
    specialize (IH s1). destruct (forward_loop fuel s1) as [r s2].
    destruct IH as (new2 & Ht2 & Hs2).
    exists (new1 ++ new2). split.
    + rewrite Ht2, Ht1, app_assoc. reflexivity.
    + rewrite stdout_bytes_app, received_app. apply subseq_app; assumption.
Qed.

(** Whatever [os.write] returns, standard output only ever receives bytes
    that came from the tunnel, in the order they came: the bytes written
    are the tunnel's bytes with some deleted (the unwritten tail of each
    partially written chunk), never reordered, duplicated or invented. *)
Theorem forward_data_stdout_subseq : forall fuel s,
  let (r, s') := forward_data fuel s in
  exists new, trace s' = trace s ++ new /\
    subseq (stdout_bytes new) (received new).
Proof.
  intros fuel s. unfold forward_data, try_except.
  pose proof (forward_loop_stdout_subseq fuel s) as H.
  destruct (forward_loop fuel s) as [[[]| e |] s1]; auto.
  destruct H as (new & Ht & Hs). cbn in *.
  exists (new ++ [EvStderr (ForwardErr e)]). split.
  - rewrite Ht, app_assoc. reflexivity.
  - rewrite stdout_bytes_app, received_app. cbn. rewrite !app_nil_r. exact Hs.
Qed.

Lemma socks5_connect_request_ascii_witness :
  exists new,
    trace (snd (socks5_connect [104; 111; 115; 116] 443
                  (mkSt (mkOracle true (Some [5; 0] :: [Some [5; 0; 0; 1]]) [] [] [] []) [])))
    = [] ++ new /\
    sent new = [5; 1; 0] ++ [5; 1; 0; 3] ++ [Z.of_nat (length [104; 111; 115; 116])] ++
               [104; 111; 115; 116] ++ [Z.shiftr 443 8; Z.land 443 255].
Proof.
  apply (socks5_connect_request_ascii [104; 111; 115; 116] 443 [Some [5; 0; 0; 1]]
           [] [] [] [] [] [5; 0]).
  - repeat constructor; lia.
  - cbn. lia.
  - lia.
  - cbn. tauto.
  - reflexivity.
Defined.
(** ** Both byte streams of the forwarding loop *)

Lemma forward_iter_exact : forall s,
  let (r, s') := forward_iter s in
  exists new, trace s' = trace s ++ new /\
    (whole_writes (env s) = true ->
     stdout_bytes new = received new /\ whole_writes (env s') = true) /\
    stdin_exact r new.
Proof.
  intros s. run_st s; subst; cbn [trace env] in *;
    rewrite <- ?app_assoc;
    first [ exists []; rewrite app_nil_r; split; [reflexivity|]
          | eexists; split; [reflexivity|] ].
  all: unfold whole_writes, stdin_exact; cbn.
  all: split; [intros Hw|].
  all: try (split; [reflexivity | exact Hw]).
  all: try (exists []; split; [rewrite ?app_nil_r; reflexivity | left; reflexivity]).
  all: try (match goal with |- exists p, ?x = p /\ _ =>
              exists x; split; [reflexivity|];
              right; split; [reflexivity|];
              match goal with |- exists pre, ?l = pre ++ _ => exists (removelast l) end;
              rewrite ?app_nil_r; reflexivity
            end).
  all: try discriminate Hw.
  all: apply andb_prop in Hw; destruct Hw as [Hk Hw]; apply Nat.leb_le in Hk;
    split; [|exact Hw].
  all: match goal with
       | H : firstn ?c ?d = ?z :: ?l |- context [Nat.min ?n (S (length ?l))] =>
           assert (Hl : (length (z :: l) <= n)%nat)
             by (rewrite <- H; pose proof (firstn_le_length c d); cbn in *; lia);
           rewrite (Nat.min_r n (S (length l))) by exact Hl;
           change (S (length l)) with (length (z :: l)); rewrite firstn_all;
           rewrite ?app_nil_r; reflexivity
       end.
Qed.

Lemma stdin_exact_cast {A B} (r1 : res A) (r2 : res B) (l : list event) :
  (r1 = Raise OSError -> r2 = Raise OSError) ->
  stdin_exact r1 l -> stdin_exact r2 l.
Proof.
  intros Hr (p & E & Hp). exists p. split; [exact E|].
  destruct Hp as [->|(H1 & pre & ->)]; [left; reflexivity|].
  right. split; [apply Hr; exact H1 | exists pre; reflexivity].
Qed.

Lemma stdin_exact_app {A} (r : res A) (l1 l2 : list event) :
  stdin_exact (Ok false) l1 -> stdin_exact r l2 -> stdin_exact r (l1 ++ l2).
Proof.
  intros (p1 & E1 & [->|[Hc _]]) (p & E2 & Hp); [|discriminate].
  exists p. split.
  - rewrite stdin_bytes_app, sent_app, E1, E2, app_nil_r, app_assoc. reflexivity.
  - destruct Hp as [->|(Hr & pre & ->)]; [left; reflexivity|].
    right. split; [exact Hr|]. exists (l1 ++ pre). rewrite app_assoc. reflexivity.
Qed.

Lemma forward_loop_exact : forall fuel s,
  let (r, s') := forward_loop fuel s in
  exists new, trace s' = trace s ++ new /\
    (whole_writes (env s) = true -> stdout_bytes new = received new) /\
    stdin_exact r new.
Proof.
  induction fuel as [|fuel IH]; intros s; cbn.
  - exists []. rewrite app_nil_r. split; [reflexivity|].
    split; [reflexivity|]. exists []. split; [reflexivity | left; reflexivity].
  - unfold bind. pose proof (forward_iter_exact s) as Hi.
    destruct (forward_iter s) as [[[|]| e |] s1]; cbn in *;
      destruct Hi as (new1 & Ht1 & Hw1 & Hx1);
      try (exists new1; split; [exact Ht1|];
           split; [intros Hw; apply Hw1; exact Hw|];
           revert Hx1; apply stdin_exact_cast; intros Hr;
           first [discriminate Hr | injection Hr as ->; reflexivity]).
    specialize (IH s1). destruct (forward_loop fuel s1) as [r s2].
    destruct IH as (new2 & Ht2 & Hw2 & Hx2).
    exists (new1 ++ new2). split; [rewrite Ht2, Ht1, app_assoc; reflexivity|].
    split.
    + intros Hw. destruct (Hw1 Hw) as [Ho Hw'].
      rewrite stdout_bytes_app, received_app, Ho, (Hw2 Hw'). reflexivity.
    + apply stdin_exact_app; assumption.
Qed.

(** Both directions of [forward_data], for every run.  Standard input to
    the tunnel: every byte read from standard input is sent on, in order,
    except possibly the chunk read last, and that chunk is left over only
    when [sendall] raised right after reading it (the run then ends with
    the forwarding error).  Tunnel to standard output: when every
    [os.write] answer writes at least 8192 bytes, standard output gets
    exactly the tunnel's bytes, in order. *)
Theorem forward_data_streams_exact : forall fuel s,
  let (r, s') := forward_data fuel s in
  exists new, trace s' = trace s ++ new /\
    (whole_writes (env s) = true -> stdout_bytes new = received new) /\
    exists pending,
      stdin_bytes new = sent new ++ pending /\
      (pending = [] \/
       (r = Raise OSError /\
        exists pre, new = pre ++ [EvStdin pending; EvStderr (ForwardErr OSError)])).
Proof.
  intros fuel s. unfold forward_data, try_except.
  pose proof (forward_loop_exact fuel s) as H.
  destruct (forward_loop fuel s) as [[[]| e |] s1];
    destruct H as (new & Ht & Hw & (p & Ep & Hp)).
  - exists new. split; [exact Ht|]. split; [exact Hw|].
    exists p. split; [exact Ep|].
    destruct Hp as [->|[Hr _]]; [left; reflexivity | discriminate].
  - cbn in *. exists (new ++ [EvStderr (ForwardErr e)]).
    split; [rewrite Ht, app_assoc; reflexivity|]. split.
    + intros Hf. rewrite stdout_bytes_app, received_app, (Hw Hf). reflexivity.
    + exists p. split.
      * rewrite stdin_bytes_app, sent_app, Ep. cbn. rewrite !app_nil_r. reflexivity.
      * destruct Hp as [->|(Hr & pre & ->)]; [left; reflexivity|].
        injection Hr as ->. right. split; [reflexivity|].
        exists pre. rewrite <- app_assoc. reflexivity.
  - exists new. split; [exact Ht|]. split; [exact Hw|].
    exists p. split; [exact Ep|].
    destruct Hp as [->|[Hr _]]; [left; reflexivity | discriminate].
Qed.
